(** * flaskr: the authentication blueprint (flaskr/auth.py, flaskr/db.py)

    A shallow embedding of the register / login / logout views, of the
    before-request hook [load_logged_in_user] and of the [login_required]
    decorator, together with the part of SQLite, of the Flask session and
    of the request lifecycle that these views observe.

    Conventions.
    - The [user] table is a list of rows in insertion order; a SELECT is a
      filter over it and [fetchone] is the head of the result.
    - The session is the signed cookie dictionary.  The only key the views
      write themselves is ["user_id"]; [flash] keeps its queue of messages
      in the same dictionary, under the key ["_flashes"], so a flash changes
      the session and [session.clear()] discards the queue with the rest.
    - Every view is a computation in a state-and-exception monad [M] over
      [state]; an uncaught Python exception is the result [Raise]. *)

From Stdlib Require Import ZArith String.
From stdpp Require Import base option list strings gmap.

Set Default Proof Using "Type".

(** ** The user table *)

(** One row of the [user] table. *)
Record user_row := UserRow {
  row_id : Z;
  row_username : string;
  row_password : string
}.

Global Instance user_row_eq_dec : EqDecision user_row.
Proof. solve_decision. Defined.

(** The database file: the rows of [user] and the AUTOINCREMENT counter
    that SQLite keeps in its [sqlite_sequence] table. *)
Record database := Database {
  user : list user_row;
  sqlite_sequence : Z
}.

(** [SELECT ... FROM user WHERE username = ?] *)
Definition select_where_username (u : string) (d : database) : list user_row :=
  filter (λ r, row_username r = u) (user d).

(** [SELECT ... FROM user WHERE id = ?] *)
Definition select_where_id (i : Z) (d : database) : list user_row :=
  filter (λ r, row_id r = i) (user d).

(** [cursor.fetchone()]: the next row of the result, [None] when there is
    none. *)
Definition fetchone {A} (rows : list A) : option A := head rows.

(** The largest rowid present in the table. *)
Definition max_rowid (rows : list user_row) : Z :=
  foldr (λ r m, Z.max (row_id r) m) 0%Z rows.

(** The rowid an AUTOINCREMENT insert assigns: one more than the largest
    rowid that ever existed in the table. *)
Definition next_rowid (d : database) : Z :=
  (Z.max (sqlite_sequence d) (max_rowid (user d)) + 1)%Z.

(** Modelled from the spec: schema.sql is not part of the sources; the table
    is [user(id PK autoincrement, username TEXT UNIQUE NOT NULL, password
    TEXT NOT NULL)].  [INSERT INTO user (username, password) VALUES (?, ?)]
    therefore fails ([None], an [sqlite3.IntegrityError]) when a row with
    that username exists, and otherwise appends a row with a fresh id. *)
Definition insert_user (u h : string) (d : database) : option database :=
  if decide (u ∈ row_username <$> user d) then None
  else
    let i := next_rowid d in
    Some {| user := user d ++ [UserRow i u h]; sqlite_sequence := i |}.

(** ** The state a request runs in *)

(** A connection is idle, or inside the transaction that the sqlite3 module
    opens before an INSERT; [working] is the database as that transaction
    sees it, visible to nobody else until it is committed. *)
Inductive connection :=
  | Idle
  | InTransaction (working : database).

(** The statements the views send to the database, for the log. *)
Inductive sql :=
  | SELECT_id_WHERE_username (u : string)
  | SELECT_all_WHERE_username (u : string)
  | SELECT_all_WHERE_id (i : Z)
  | INSERT_user (u h : string)
  | COMMIT.

(** The session dictionary, by the type of its entries: the reserved key
    ["_flashes"], absent or a list of (category, message) pairs, and the
    other keys, which hold integers. *)
Record session_dict := SessionDict {
  session_items : gmap string Z;                       (* every key but '_flashes' *)
  session_flashes : option (list (string * string))    (* session.get('_flashes') *)
}.

(** The dictionary with no key at all: what [session.clear()] leaves. *)
Definition empty_session : session_dict := SessionDict ∅ None.

Record state := State {
  store : database;                 (* committed contents of the database file *)
  flask_session : session_dict;     (* flask.session *)
  g_db : option connection;         (* g.db; None when 'db' not in g *)
  g_user : option (option user_row);(* g.user; None when the attribute is unset *)
  sql_log : list sql                (* statements executed so far *)
}.

(** The entries of the session other than the flash queue. *)
Definition session (st : state) : gmap string Z :=
  session_items (flask_session st).

(** [session.get('_flashes', [])] *)
Definition pending (st : state) : list (string * string) :=
  default [] (session_flashes (flask_session st)).

(** The messages of the flash queue, oldest first. *)
Definition flashes (st : state) : list string := snd <$> pending st.

Definition set_store (d : database) (st : state) : state :=
  State d (flask_session st) (g_db st) (g_user st) (sql_log st).
Definition set_flask_session (s : session_dict) (st : state) : state :=
  State (store st) s (g_db st) (g_user st) (sql_log st).
Definition set_g_db (c : option connection) (st : state) : state :=
  State (store st) (flask_session st) c (g_user st) (sql_log st).
Definition set_g_user (u : option (option user_row)) (st : state) : state :=
  State (store st) (flask_session st) (g_db st) u (sql_log st).
Definition set_sql_log (l : list sql) (st : state) : state :=
  State (store st) (flask_session st) (g_db st) (g_user st) l.

(** The database as the request's connection reads it. *)
Definition current_db (st : state) : database :=
  match g_db st with
  | Some (InTransaction d) => d
  | _ => store st
  end.

(** No transaction is open on the request's connection. *)
Definition no_transaction (st : state) : Prop :=
  match g_db st with
  | Some (InTransaction _) => False
  | _ => True
  end.

Global Instance no_transaction_dec st : Decision (no_transaction st).
Proof. unfold no_transaction. destruct (g_db st) as [[|?]|]; apply _. Defined.

(** ** The monad of views *)

Inductive exn :=
  | BadRequestKeyError (key : string)   (* request.form[key], key missing *)
  | IntegrityError                      (* sqlite3.IntegrityError *)
  | AttributeError (name : string)      (* g.name, attribute unset *)
  | TypeError                           (* None[key] *)
  | BuildError (endpoint : string).     (* url_for, unknown endpoint *)

Inductive result (A : Type) :=
  | Ok (a : A)
  | Raise (e : exn).
Global Arguments Ok {A} a.
Global Arguments Raise {A} e.

Definition M (A : Type) : Type := state → result A * state.

Global Instance M_ret : MRet M := λ A (a : A) st, (Ok a, st).
Global Instance M_bind : MBind M := λ A B (k : A → M B) (c : M A) st,
  match c st with
  | (Ok a, st') => k a st'
  | (Raise e, st') => (Raise e, st')
  end.

Definition raise {A} (e : exn) : M A := λ st, (Raise e, st).
Definition gets {A} (f : state → A) : M A := λ st, (Ok (f st), st).
Definition modify (f : state → state) : M unit := λ st, (Ok tt, f st).

(** ** Requests and responses *)

Record request := Request {
  method : string;                  (* request.method *)
  form : gmap string string         (* request.form *)
}.

Inductive response :=
  | Redirect (location : string)    (* redirect(location) *)
  | Render (template : string).     (* render_template(template) *)

(** [request.form[key]]: a missing key is a 400 Bad Request. *)
Definition form_get (req : request) (key : string) : M string :=
  match form req !! key with
  | Some v => mret v
  | None => raise (BadRequestKeyError key)
  end.

(** [flash(message)], with the default category:
    [flashes = session.get('_flashes', []);
     flashes.append((category, message)); session['_flashes'] = flashes]. *)
Definition flashed (message : string) (st : state) : state :=
  set_flask_session
    (SessionDict (session st) (Some (pending st ++ [("message", message)])))
    st.

Definition flash (message : string) : M unit := modify (flashed message).

(** [session.clear()] *)
Definition session_clear : M unit := modify (set_flask_session empty_session).

(** [session[key] = value], for a key other than ['_flashes']. *)
Definition session_setitem (key : string) (value : Z) : M unit :=
  modify (λ st,
    set_flask_session
      (SessionDict (<[key := value]> (session st))
         (session_flashes (flask_session st)))
      st).

(** [render_template(template)].  The templates are not among the sources;
    a rendering returns the page and leaves the state as it is. *)
Definition render_template (template : string) : M response :=
  mret (Render template).

(** The URL map.  The three auth routes are [url_prefix='/auth'] followed by
    the rule of each [bp.route].

    Modelled from the spec: the [index] endpoint is registered outside
    auth.py and db.py; the home view is at [/]. *)
Definition url_for (endpoint : string) : M string :=
  if decide (endpoint = "auth.register") then mret "/auth/register"
  else if decide (endpoint = "auth.login") then mret "/auth/login"
  else if decide (endpoint = "auth.logout") then mret "/auth/logout"
  else if decide (endpoint = "index") then mret "/"
  else raise (BuildError endpoint).

Definition redirect (location : string) : M response :=
  mret (Redirect location).

(** ** werkzeug.security *)

(** The credential hasher.  [generate_password_hash] draws a random salt;
    the salt is an explicit argument here.  [check_generate] is the
    contract of the library: a hash verifies against the password it was
    made from, whatever the salt. *)
Class Hasher := {
  generate_password_hash : string → string → string;
  check_password_hash : string → string → bool;
  check_generate : ∀ salt pw,
    check_password_hash (generate_password_hash salt pw) pw = true
}.

(** ** flaskr/db.py *)

(** [get_db()]: connect on first use, reuse the connection afterwards. *)
Definition get_db : M unit := λ st,
  match g_db st with
  | None => (Ok tt, set_g_db (Some Idle) st)
  | Some _ => (Ok tt, st)
  end.

(** [close_db(e=None)]: pop [g.db] and close it; closing abandons whatever
    was not committed. *)
Definition close_db : M unit := modify (set_g_db None).

Definition log (q : sql) (st : state) : state :=
  set_sql_log (sql_log st ++ [q]) st.

(** [db.execute('SELECT id FROM user WHERE username = ?', (u,)).fetchone()] *)
Definition execute_select_id_where_username (u : string) : M (option Z) := λ st,
  (Ok (row_id <$> fetchone (select_where_username u (current_db st))),
   log (SELECT_id_WHERE_username u) st).

(** [db.execute('SELECT * FROM user WHERE username = ?', (u,)).fetchone()] *)
Definition execute_select_all_where_username (u : string) : M (option user_row) := λ st,
  (Ok (fetchone (select_where_username u (current_db st))),
   log (SELECT_all_WHERE_username u) st).

(** [db.execute('SELECT * FROM user WHERE id = ?', (i,)).fetchone()] *)
Definition execute_select_all_where_id (i : Z) : M (option user_row) := λ st,
  (Ok (fetchone (select_where_id i (current_db st))),
   log (SELECT_all_WHERE_id i) st).

(** [db.execute('INSERT INTO user (username, password) VALUES (?, ?)', (u, h))]:
    the row is added inside a transaction of this connection. *)
Definition execute_insert_user (u h : string) : M unit := λ st,
  match insert_user u h (current_db st) with
  | Some d => (Ok tt, log (INSERT_user u h) (set_g_db (Some (InTransaction d)) st))
  | None => (Raise IntegrityError, log (INSERT_user u h) st)
  end.

(** [db.commit()]: the open transaction, if any, becomes the database file. *)
Definition commit : M unit := λ st,
  match g_db st with
  | Some (InTransaction d) => (Ok tt, log COMMIT (set_store d (set_g_db (Some Idle) st)))
  | _ => (Ok tt, log COMMIT st)
  end.

(** ** flaskr/auth.py *)

Section auth.
Context `{Hasher}.

(** [register], lines 35-47: the validation chain that yields [error]. *)
Definition register_validate (username password : string) : M (option string) :=
  if decide (username = "") then mret (Some "Username is required.")
  else if decide (password = "") then mret (Some "Password is required.")
  else
    row ← execute_select_id_where_username username;
    if row is Some _
    then mret (Some ("User " +:+ username +:+ " is already registered."))
    else mret None.

(** [register], lines 50-73: insert and redirect, or flash and render. *)
Definition register_finish (salt username password : string)
    (error : option string) : M response :=
  match error with
  | None =>
      execute_insert_user username (generate_password_hash salt password);;
      commit;;
      url ← url_for "auth.login";
      redirect url
  | Some e =>
      flash e;;
      render_template "auth/register.html"
  end.

(** The [register] view; [salt] is the randomness
    [generate_password_hash] draws. *)
Definition register (salt : string) (req : request) : M response :=
  if decide (method req = "POST") then
    username ← form_get req "username";
    password ← form_get req "password";
    get_db;;
    error ← register_validate username password;
    register_finish salt username password error
  else render_template "auth/register.html".

(** [register] with other requests running beside it: [env] is what they
    commit to the database file after this request's SELECT and before its
    INSERT. *)
Definition register_interleaved (env : database → database)
    (salt : string) (req : request) : M response :=
  if decide (method req = "POST") then
    username ← form_get req "username";
    password ← form_get req "password";
    get_db;;
    error ← register_validate username password;
    modify (λ st, set_store (env (store st)) st);;
    register_finish salt username password error
  else render_template "auth/register.html".

(** The [login] view. *)
Definition login (req : request) : M response :=
  if decide (method req = "POST") then
    username ← form_get req "username";
    password ← form_get req "password";
    get_db;;
    user ← execute_select_all_where_username username;
    let error :=
      match user with
      | None => Some "Incorrect username."
      | Some u =>
          if check_password_hash (row_password u) password then None
          else Some "Incorrect password."
      end in
    match error, user with
    | None, Some u =>
        session_clear;;
        session_setitem "user_id" (row_id u);;
        url ← url_for "index";
        redirect url
    | None, None => raise TypeError
    | Some e, _ =>
        flash e;;
        render_template "auth/login.html"
    end
  else render_template "auth/login.html".

End auth.

(** [load_logged_in_user], run before every view. *)
Definition load_logged_in_user : M unit :=
  user_id ← gets (λ st, session st !! "user_id");
  match user_id with
  | None => modify (set_g_user (Some None))
  | Some i =>
      get_db;;
      row ← execute_select_all_where_id i;
      modify (set_g_user (Some row))
  end.

(** The [logout] view. *)
Definition logout : M response :=
  session_clear;;
  url ← url_for "index";
  redirect url.

(** [login_required(view)]: the wrapped view. *)
Definition login_required {K} (view : K → M response) : K → M response :=
  λ kwargs,
    user ← (λ st, match g_user st with
                  | Some u => (Ok u, st)
                  | None => (Raise (AttributeError "user"), st)
                  end);
    if user is None then
      url ← url_for "auth.login";
      redirect url
    else view kwargs.

(** ** The request lifecycle *)

(** A new application context: [g] is empty. *)
Definition push_app_context (st : state) : state :=
  set_g_user None (set_g_db None st).

(** The end of the application context: [g] is gone. *)
Definition pop_app_context (st : state) : state :=
  set_g_user None (set_g_db None st).

(** One request: the before-request hook registered by
    [bp.before_app_request], then the view, then the teardown registered by
    [app.teardown_appcontext], which runs also when the view raised. *)
Definition dispatch (view : M response) : M response := λ st,
  let '(r, st1) := (load_logged_in_user;; view) (push_app_context st) in
  (r, pop_app_context (snd (close_db st1))).

(** The identity the next request is given: [g.user] after the hook. *)
Definition hydrate (st : state) : option (option user_row) :=
  g_user (snd (load_logged_in_user (push_app_context st))).

(** ** Vocabulary of the statements *)

(** [preserves f c]: running [c] does not change the component [f] of the
    state, whether [c] returns or raises. *)
Definition preserves {A B} (f : state → B) (c : M A) : Prop :=
  ∀ st, f (snd (c st)) = f st.

(** What a rejected registration leaves behind, started in [st]: the form
    again, the one message [msg] added to the flash queue, the statements
    [queries] added to the log, and the store and the other entries of the
    session as in [st]. *)
Definition rejected (msg : string) (queries : list sql)
    (st : state) (out : result response * state) : Prop :=
  fst out = Ok (Render "auth/register.html") ∧
  flashes (snd out) = flashes st ++ [msg] ∧
  sql_log (snd out) = sql_log st ++ queries ∧
  store (snd out) = store st ∧
  session (snd out) = session st.

(** The constraints of the schema on a table: [id] is a key and so is
    [username]. *)
Definition well_formed (d : database) : Prop :=
  NoDup (row_id <$> user d) ∧ NoDup (row_username <$> user d).

(** ** A concrete hasher and concrete states, for the examples *)

(** A hasher that stores the password in the clear before the salt.  It
    meets the contract of [Hasher] and computes. *)
Definition plain_generate (salt pw : string) : string := pw +:+ "$" +:+ salt.

Definition plain_check (h pw : string) : bool := String.prefix (pw +:+ "$") h.

Definition plain_hasher : Hasher.
Proof.
  refine (Build_Hasher plain_generate plain_check _).
  intros salt pw. unfold plain_check, plain_generate.
  induction pw as [|a pw IH]; simpl.
  - by destruct salt.
  - by destruct (Ascii.ascii_dec a a).
Defined.

(** A form with the two fields. *)
Definition post (u p : string) : request :=
  Request "POST" (<["username" := u]> (<["password" := p]> ∅)).

(** A fresh database and a visitor without a session, between requests. *)
Definition st_empty : state :=
  State (Database [] 0) empty_session None None [].

Definition alice : user_row := UserRow 1 "alice" (plain_generate "s" "secret1").

(** The same after alice has registered. *)
Definition st_alice : state :=
  State (Database [alice] 1) empty_session None None [].

(** Alice logged in, with a key of an earlier visit still in the cookie. *)
Definition st_alice_in : state :=
  State (Database [alice] 1)
    (SessionDict (<["user_id" := 1%Z]> (<["theme" := 7%Z]> ∅)) None)
    None None [].

(** The same with a message still queued from an earlier request. *)
Definition st_alice_pending : state :=
  State (Database [alice] 1)
    (SessionDict (<["user_id" := 1%Z]> (<["theme" := 7%Z]> ∅))
       (Some [("message", "Incorrect password.")]))
    None None [].

(** A cookie that names a user who is not in the table. *)
Definition st_stale : state :=
  State (Database [alice] 1) (SessionDict (<["user_id" := 5%Z]> ∅) None)
    None None [].

(** A protected view with an effect to observe. *)
Definition create_view (_ : unit) : M response :=
  flash "create ran";; render_template "blog/create.html".

(** Another visitor registers as bob while a request is running. *)
Definition bob_registers (d : database) : database :=
  default d (insert_user "bob" (plain_generate "t" "hunter2") d).

(** * Properties *)

(** ** The table *)

Section table.
Implicit Types (d : database) (r : user_row) (u h : string) (i : Z).

Lemma fetchone_username_None u d :
  fetchone (select_where_username u d) = None ↔ u ∉ row_username <$> user d.
Proof.
  unfold fetchone, select_where_username. rewrite head_None. split.
  - intros Hnil [r [-> Hr]]%list_elem_of_fmap.
    eapply filter_nil_not_elem_of; [exact Hnil| |exact Hr]; done.
  - intros Hnot. destruct (filter _ _) as [|r l] eqn:Hf; [done|].
    assert (r ∈ filter (λ r, row_username r = u) (user d)) as Hr
      by (rewrite Hf; left).
    apply list_elem_of_filter in Hr as [<- Hr].
    destruct Hnot. by apply list_elem_of_fmap_2.
Qed.

Lemma fetchone_username_Some u d r :
  fetchone (select_where_username u d) = Some r →
  r ∈ user d ∧ row_username r = u.
Proof.
  unfold fetchone. intros Hr%head_Some_elem_of.
  by apply list_elem_of_filter in Hr as [? ?].
Qed.

Lemma fetchone_id_Some i d r :
  fetchone (select_where_id i d) = Some r → r ∈ user d ∧ row_id r = i.
Proof.
  unfold fetchone. intros Hr%head_Some_elem_of.
  by apply list_elem_of_filter in Hr as [? ?].
Qed.

Lemma fetchone_id_None i d :
  fetchone (select_where_id i d) = None ↔ ∀ r, r ∈ user d → row_id r ≠ i.
Proof.
  unfold fetchone, select_where_id. rewrite head_None. split.
  - intros Hnil r Hr Hi.
    eapply filter_nil_not_elem_of; [exact Hnil| |exact Hr]; done.
  - intros Hnot. destruct (filter _ _) as [|r l] eqn:Hf; [done|].
    assert (r ∈ filter (λ r, row_id r = i) (user d)) as Hr
      by (rewrite Hf; left).
    apply list_elem_of_filter in Hr as [Hi Hr]. by destruct (Hnot r Hr).
Qed.

(** Every rowid in the table is below the next one. *)
Lemma max_rowid_ge rows r : r ∈ rows → (row_id r ≤ max_rowid rows)%Z.
Proof.
  induction 1 as [r rows|r r' rows _ IH]; simpl; lia.
Qed.

Lemma next_rowid_fresh d r : r ∈ user d → (row_id r < next_rowid d)%Z.
Proof. intros Hr%max_rowid_ge. unfold next_rowid. lia. Qed.

Lemma insert_user_free u h d :
  fetchone (select_where_username u d) = None →
  insert_user u h d =
    Some {| user := user d ++ [UserRow (next_rowid d) u h];
            sqlite_sequence := next_rowid d |}.
Proof.
  intros Hfree%fetchone_username_None. unfold insert_user.
  by rewrite decide_False.
Qed.

Lemma insert_user_taken u h d r :
  fetchone (select_where_username u d) = Some r → insert_user u h d = None.
Proof.
  intros [Hr <-]%fetchone_username_Some. unfold insert_user.
  rewrite decide_True; [done|]. by apply list_elem_of_fmap_2.
Qed.

(** After the insert, the username selects the new row and so does its id. *)
Lemma select_username_inserted u h d :
  fetchone (select_where_username u d) = None →
  fetchone (select_where_username u
    {| user := user d ++ [UserRow (next_rowid d) u h];
       sqlite_sequence := next_rowid d |}) = Some (UserRow (next_rowid d) u h).
Proof.
  unfold fetchone, select_where_username. simpl. intros Hnil%head_None.
  rewrite filter_app, Hnil, app_nil_l. by rewrite filter_cons_True.
Qed.

Lemma select_id_inserted u h d :
  fetchone (select_where_id (next_rowid d)
    {| user := user d ++ [UserRow (next_rowid d) u h];
       sqlite_sequence := next_rowid d |}) = Some (UserRow (next_rowid d) u h).
Proof.
  unfold fetchone, select_where_id. simpl. rewrite filter_app.
  assert (filter (λ r, row_id r = next_rowid d) (user d) = []) as ->.
  { apply head_None, (fetchone_id_None _ d). intros r Hr%next_rowid_fresh. lia. }
  rewrite app_nil_l. by rewrite filter_cons_True.
Qed.

(** An accepted insert keeps both keys of the schema. *)
Lemma insert_user_well_formed u h d d' :
  well_formed d → insert_user u h d = Some d' → well_formed d'.
Proof.
  intros [Hid Hname]. unfold insert_user. case_decide as Hu; [done|].
  intros [= <-]. unfold well_formed. simpl. rewrite !fmap_app. simpl.
  split; apply NoDup_app; (split; [done|]); (split; [|apply NoDup_singleton]).
  - intros i [r [-> Hr%next_rowid_fresh]]%list_elem_of_fmap.
    rewrite list_elem_of_singleton. lia.
  - intros x Hx. rewrite list_elem_of_singleton. by intros ->.
Qed.
End table.

(** ** Running the monad *)

Lemma bind_Ok {A B} (c : M A) (k : A → M B) st a st' :
  c st = (Ok a, st') → (c ≫= k) st = k a st'.
Proof. unfold mbind, M_bind. by intros ->. Qed.

Lemma bind_Raise {A B} (c : M A) (k : A → M B) st e st' :
  c st = (Raise e, st') → (c ≫= k) st = (Raise e, st').
Proof. unfold mbind, M_bind. by intros ->. Qed.

(** Unfold the monad and the primitives down to matches on the state. *)
Ltac unfold_M :=
  unfold mbind, mret, M_bind, M_ret, raise, gets, modify, flash, redirect,
    render_template, form_get in *.

(** Read [session] and [flashes] as projections of the dictionary. *)
Ltac unfold_session := unfold flashes, pending, session in *.

(** What a flash does to the session: one message more at the end of the
    queue, the other entries untouched. *)
Lemma flashed_flashes msg st : flashes (flashed msg st) = flashes st ++ [msg].
Proof. unfold_session. simpl. by rewrite fmap_app. Qed.

Lemma flashed_session msg st : session (flashed msg st) = session st.
Proof. done. Qed.


Lemma get_db_flask_session st : flask_session (snd (get_db st)) = flask_session st.
Proof. unfold get_db. by destruct (g_db st). Qed.

Lemma no_transaction_current_db st : no_transaction st → current_db st = store st.
Proof.
  unfold no_transaction, current_db. by destruct (g_db st) as [[|?]|].
Qed.

Lemma get_db_no_transaction st : no_transaction st → no_transaction (snd (get_db st)).
Proof.
  unfold no_transaction, get_db. by destruct st as [? ? [[|?]|] ? ?].
Qed.

Lemma get_db_frame st :
  let st' := snd (get_db st) in
  store st' = store st ∧ session st' = session st ∧ flashes st' = flashes st ∧
  sql_log st' = sql_log st ∧ g_user st' = g_user st ∧
  current_db st' = current_db st.
Proof. unfold get_db, current_db. by destruct st as [? ? [[|?]|] ? ?]. Qed.

(** ** The before-request hook *)

Lemma load_logged_in_user_run st :
  load_logged_in_user (push_app_context st) =
    match session st !! "user_id" with
    | None => (Ok tt, set_g_user (Some None) (push_app_context st))
    | Some i =>
        (Ok tt,
         set_g_user (Some (fetchone (select_where_id i (store st))))
           (log (SELECT_all_WHERE_id i)
              (set_g_db (Some Idle) (push_app_context st))))
    end.
Proof.
  unfold load_logged_in_user. unfold_M. unfold_session. simpl.
  by destruct (session_items (flask_session st) !! "user_id").
Qed.

Lemma hydrate_eq st :
  hydrate st =
    Some (i ← session st !! "user_id"; fetchone (select_where_id i (store st))).
Proof.
  unfold hydrate. rewrite load_logged_in_user_run.
  by destruct (session st !! "user_id").
Qed.

(** The hook never raises, and hands the view a state with the same store,
    session and flash queue and with no open transaction. *)
Lemma load_logged_in_user_frame st :
  let st' := snd (load_logged_in_user (push_app_context st)) in
  fst (load_logged_in_user (push_app_context st)) = Ok tt ∧
  store st' = store st ∧ session st' = session st ∧
  flashes st' = flashes st ∧ no_transaction st' ∧ g_user st' = hydrate st.
Proof.
  unfold hydrate. rewrite load_logged_in_user_run.
  by destruct (session st !! "user_id").
Qed.


(** A request is the view run in the state the hook leaves, then the
    teardown. *)
Lemma dispatch_run view st :
  dispatch view st =
    (fst (view (snd (load_logged_in_user (push_app_context st)))),
     pop_app_context (snd (close_db
       (snd (view (snd (load_logged_in_user (push_app_context st)))))))).
Proof.
  unfold dispatch, mbind, M_bind. rewrite load_logged_in_user_run.
  by destruct (session st !! "user_id"); simpl; destruct (view _).
Qed.

(** Primary keys identify rows. *)
Lemma row_id_inj (rows : list user_row) r r' :
  NoDup (row_id <$> rows) → r ∈ rows → r' ∈ rows → row_id r = row_id r' → r = r'.
Proof.
  induction rows as [|x rows IH]; [by intros _ ?%elem_of_nil|].
  rewrite fmap_cons, NoDup_cons.
  intros [Hx Hnd] [->|Hr]%elem_of_cons [->|Hr']%elem_of_cons Hid; [done|..].
  - destruct Hx. rewrite Hid. by apply list_elem_of_fmap_2.
  - destruct Hx. rewrite <-Hid. by apply list_elem_of_fmap_2.
  - by apply IH.
Qed.

(** C5. Identity hydration, for the session and store a request starts
    from: the hook itself returns normally; without a ["user_id"] in the
    session the identity is anonymous; with a ["user_id"] that no row of the
    store carries it is anonymous as well; with a ["user_id"] that a row
    carries it is a row of the store with that id, all columns included,
    and it is that very row when ids are unique as the primary key makes
    them. *)
Theorem load_logged_in_user_identity (st : state) :
  fst (load_logged_in_user (push_app_context st)) = Ok tt ∧
  (session st !! "user_id" = None → hydrate st = Some None) ∧
  (∀ i, session st !! "user_id" = Some i →
     (∀ r, r ∈ user (store st) → row_id r ≠ i) → hydrate st = Some None) ∧
  (∀ i r, session st !! "user_id" = Some i →
     r ∈ user (store st) → row_id r = i →
     (∃ r', hydrate st = Some (Some r') ∧ r' ∈ user (store st) ∧ row_id r' = i) ∧
     (NoDup (row_id <$> user (store st)) → hydrate st = Some (Some r))).
Proof.
  split; [apply load_logged_in_user_frame|].
  rewrite hydrate_eq. split; [by intros ->|]. split.
  - intros i -> Hnone. simpl. by apply fetchone_id_None in Hnone as ->.
  - intros i r -> Hr Hi. simpl.
    destruct (fetchone (select_where_id i (store st))) as [r'|] eqn:Hsel.
    + apply fetchone_id_Some in Hsel as [Hr' Hi']. split; [by exists r'|].
      intros Hnd. do 2 f_equal. apply (row_id_inj (user (store st))); congruence.
    + rewrite fetchone_id_None in Hsel. by destruct (Hsel r Hr).
Qed.

(** ** The access guard *)

Section guard.
Context {K : Type}.
Implicit Types (view : K → M response) (kwargs : K).

Lemma login_required_anonymous view kwargs st :
  g_user st = Some None →
  login_required view kwargs st = (Ok (Redirect "/auth/login"), st).
Proof. unfold login_required. unfold_M. by intros ->. Qed.

Lemma login_required_authenticated view kwargs st u :
  g_user st = Some (Some u) →
  login_required view kwargs st = view kwargs st.
Proof. unfold login_required. unfold_M. by intros ->. Qed.

(** C6. With an anonymous identity the wrapped view returns a redirect to
    the login view and leaves the state as it found it, whatever the view
    is: the view is not run and none of its effects occur.  With an
    authenticated identity the wrapped view is the view, applied to the
    same keyword arguments in the same state, result and effects
    unchanged.  The same holds for a whole request, where the identity is
    the one the hook loads. *)
Theorem login_required_guard view kwargs st :
  (g_user st = Some None →
     login_required view kwargs st = (Ok (Redirect "/auth/login"), st) ∧
     ∀ view', login_required view' kwargs st = login_required view kwargs st) ∧
  (∀ u, g_user st = Some (Some u) →
     login_required view kwargs st = view kwargs st) ∧
  (hydrate st = Some None →
     fst (dispatch (login_required view kwargs) st) = Ok (Redirect "/auth/login") ∧
     ∀ view', dispatch (login_required view' kwargs) st =
              dispatch (login_required view kwargs) st) ∧
  (∀ u, hydrate st = Some (Some u) →
     dispatch (login_required view kwargs) st = dispatch (view kwargs) st).
Proof.
  split; [|split; [|split]].
  - intros Hg. split; [by apply login_required_anonymous|].
    intros view'. by rewrite !login_required_anonymous.
  - intros u. apply login_required_authenticated.
  - intros Hh.
    destruct (load_logged_in_user_frame st) as (Hok & _ & _ & _ & _ & Hg).
    rewrite Hh in Hg. unfold dispatch.
    destruct (load_logged_in_user (push_app_context st)) as [r st1] eqn:Hrun.
    simpl in Hok, Hg. subst r.
    assert (∀ v, (load_logged_in_user;; login_required v kwargs)
                   (push_app_context st) = (Ok (Redirect "/auth/login"), st1)) as Hv.
    { intros v. rewrite (bind_Ok _ _ _ _ _ Hrun).
      by apply login_required_anonymous. }
    split; [by rewrite Hv|]. intros view'. by rewrite !Hv.
  - intros u Hh.
    destruct (load_logged_in_user_frame st) as (Hok & _ & _ & _ & _ & Hg).
    rewrite Hh in Hg. unfold dispatch.
    destruct (load_logged_in_user (push_app_context st)) as [r st1] eqn:Hrun.
    simpl in Hok, Hg. subst r.
    rewrite !(bind_Ok _ _ _ _ _ Hrun).
    by rewrite (login_required_authenticated _ _ _ u).
Qed.
End guard.

(** ** Logout *)

Lemma logout_run st :
  logout st = (Ok (Redirect "/"), set_flask_session empty_session st).
Proof. done. Qed.

Lemma dispatch_logout_run st :
  fst (dispatch logout st) = Ok (Redirect "/") ∧
  session (snd (dispatch logout st)) = ∅ ∧
  store (snd (dispatch logout st)) = store st ∧
  flask_session (snd (dispatch logout st)) = empty_session.
Proof.
  unfold dispatch, mbind, M_bind. rewrite load_logged_in_user_run.
  by destruct (session st !! "user_id").
Qed.

(** C9. Logout removes every entry of the session, the flash queue
    included, and redirects to the home view, from every state.  On a
    session that is already empty it changes nothing at all and gives the
    same redirect, and doing it twice is doing it once.  After a logout, as
    a view or as a whole request, the session is the empty dictionary and
    the next request is anonymous. *)
Theorem logout_clears_session (st : state) :
  logout st = (Ok (Redirect "/"), set_flask_session empty_session st) ∧
  flask_session (snd (logout st)) = empty_session ∧
  session (snd (logout st)) = ∅ ∧
  flashes (snd (logout st)) = [] ∧
  (flask_session st = empty_session → logout st = (Ok (Redirect "/"), st)) ∧
  logout (snd (logout st)) = logout st ∧
  hydrate (snd (logout st)) = Some None ∧
  fst (dispatch logout st) = Ok (Redirect "/") ∧
  flask_session (snd (dispatch logout st)) = empty_session ∧
  hydrate (snd (dispatch logout st)) = Some None.
Proof.
  destruct (dispatch_logout_run st) as (Hr & Hs & _ & Hd).
  repeat split; try done.
  - destruct st; simpl. by intros ->.
  - rewrite hydrate_eq. by rewrite Hs.
Qed.

(** ** Frames: what a computation leaves alone *)

Create HintDb frame discriminated.

Section frames.
Context {B : Type} (f : state → B).

Lemma preserves_ret {A} (a : A) : preserves f (mret a).
Proof. done. Qed.

Lemma preserves_raise {A} e : preserves f (raise (A:=A) e).
Proof. done. Qed.

Lemma preserves_bind {A C} (c : M A) (k : A → M C) :
  preserves f c → (∀ a, preserves f (k a)) → preserves f (c ≫= k).
Proof.
  intros Hc Hk st. unfold mbind, M_bind. specialize (Hc st).
  destruct (c st) as [[a|e] st']; simpl in *; [|done].
  by rewrite Hk.
Qed.

Lemma preserves_modify (h : state → state) :
  (∀ st, f (h st) = f st) → preserves f (modify h).
Proof. intros Hh st. apply Hh. Qed.
End frames.

Lemma get_db_session : preserves session get_db.
Proof. intros st. unfold get_db. by destruct (g_db st). Qed.

Lemma get_db_store : preserves store get_db.
Proof. intros st. unfold get_db. by destruct (g_db st). Qed.

Lemma get_db_flashes : preserves flashes get_db.
Proof. intros st. unfold get_db. by destruct (g_db st). Qed.

Lemma get_db_sql_log : preserves sql_log get_db.
Proof. intros st. unfold get_db. by destruct (g_db st). Qed.

Lemma execute_insert_user_session u h : preserves session (execute_insert_user u h).
Proof. intros st. unfold execute_insert_user. by destruct (insert_user _ _ _). Qed.

Lemma commit_session : preserves session commit.
Proof. intros st. unfold commit. by destruct (g_db st) as [[|?]|]. Qed.

Lemma url_for_preserves {B} (f : state → B) endpoint : preserves f (url_for endpoint).
Proof. intros st. unfold url_for. by repeat case_decide. Qed.

Lemma form_get_preserves {B} (f : state → B) req key : preserves f (form_get req key).
Proof. intros st. unfold form_get. by destruct (form req !! key). Qed.

Global Hint Resolve preserves_ret preserves_raise get_db_session get_db_store
  get_db_flashes get_db_sql_log execute_insert_user_session commit_session
  url_for_preserves form_get_preserves : frame.

(** Split a computation along its binds and branches, and close the leaves
    with the [frame] hints. *)
Ltac frame :=
  repeat first
    [ apply preserves_bind; [|intros ?]
    | case_decide
    | case_match
    | progress eauto with frame
    | by intros [] ].

(** ** Register *)

Section register.
Context `{Hasher}.
Implicit Types (req : request) (st : state) (u p salt : string).


Lemma register_interleaved_session env salt req :
  preserves session (register_interleaved env salt req).
Proof.
  unfold register_interleaved, register_validate, register_finish,
    execute_select_id_where_username, flash, render_template, redirect.
  frame.
Qed.

(** A POST that carries both fields gets past the form and connects. *)
Lemma register_post salt req st u p :
  method req = "POST" →
  form req !! "username" = Some u → form req !! "password" = Some p →
  register salt req st =
    (register_validate u p ≫= register_finish salt u p) (snd (get_db st)).
Proof.
  intros Hm Hu Hp. unfold register, form_get.
  rewrite decide_True, Hu, Hp by done.
  unfold_M. unfold get_db. by destruct (g_db st).
Qed.

Lemma register_interleaved_post env salt req st u p :
  method req = "POST" →
  form req !! "username" = Some u → form req !! "password" = Some p →
  register_interleaved env salt req st =
    (error ← register_validate u p;
     modify (λ st, set_store (env (store st)) st);;
     register_finish salt u p error) (snd (get_db st)).
Proof.
  intros Hm Hu Hp. unfold register_interleaved, form_get.
  rewrite decide_True, Hu, Hp by done.
  unfold_M. unfold get_db. by destruct (g_db st).
Qed.

(** The validation chain, case by case. *)
Lemma register_validate_no_username p st :
  register_validate "" p st = (Ok (Some "Username is required."), st).
Proof. done. Qed.

Lemma register_validate_no_password u st :
  u ≠ "" → register_validate u "" st = (Ok (Some "Password is required."), st).
Proof. intros Hu. unfold register_validate. by rewrite decide_False. Qed.

Lemma register_validate_select u p st :
  u ≠ "" → p ≠ "" →
  register_validate u p st =
    (Ok (if fetchone (select_where_username u (current_db st)) is Some _
         then Some ("User " +:+ u +:+ " is already registered.") else None),
     log (SELECT_id_WHERE_username u) st).
Proof.
  intros Hu Hp. unfold register_validate. rewrite !decide_False by done.
  unfold_M. unfold execute_select_id_where_username.
  by destruct (fetchone _).
Qed.

(** Whatever the fields are, validation does not write: the store, the
    session, the flash queue and the connection are as before. *)
Lemma register_validate_frame u p st :
  let st' := snd (register_validate u p st) in
  store st' = store st ∧ session st' = session st ∧
  flashes st' = flashes st ∧ g_db st' = g_db st.
Proof.
  unfold register_validate. repeat case_decide; [done..|].
  unfold_M. unfold execute_select_id_where_username. simpl.
  by destruct (fetchone _).
Qed.

(** The error branch of the second half: one flash, the form again. *)
Lemma register_finish_error salt u p e st :
  register_finish salt u p (Some e) st =
    (Ok (Render "auth/register.html"), flashed e st).
Proof. done. Qed.

(** The insert branch, when the table accepts the row. *)
Lemma register_finish_insert salt u p st d :
  insert_user u (generate_password_hash salt p) (current_db st) = Some d →
  register_finish salt u p None st =
    (Ok (Redirect "/auth/login"),
     log COMMIT (set_store d (set_g_db (Some Idle)
       (log (INSERT_user u (generate_password_hash salt p))
          (set_g_db (Some (InTransaction d)) st))))).
Proof.
  intros Hins. unfold register_finish, execute_insert_user. unfold_M.
  by rewrite Hins.
Qed.

(** The insert branch, when the table refuses the row. *)
Lemma register_finish_conflict salt u p st :
  insert_user u (generate_password_hash salt p) (current_db st) = None →
  register_finish salt u p None st =
    (Raise IntegrityError,
     log (INSERT_user u (generate_password_hash salt p)) st).
Proof.
  intros Hins. unfold register_finish, execute_insert_user. unfold_M.
  by rewrite Hins.
Qed.

Lemma register_rejected_no_username salt req st p :
  method req = "POST" →
  form req !! "username" = Some "" → form req !! "password" = Some p →
  rejected "Username is required." [] st (register salt req st).
Proof.
  intros Hm Hu Hp. rewrite (register_post _ _ _ _ _ Hm Hu Hp).
  destruct (get_db_frame st) as (Hst & Hse & Hfl & Hlog & _ & _).
  rewrite (bind_Ok _ _ _ _ _ (register_validate_no_username _ _)).
  rewrite register_finish_error. unfold rejected. cbn [fst snd].
  rewrite flashed_flashes, flashed_session. unfold_session. simpl.
  by rewrite get_db_flask_session, Hst, Hlog, app_nil_r.
Qed.

Lemma register_rejected_no_password salt req st u :
  method req = "POST" →
  form req !! "username" = Some u → form req !! "password" = Some "" →
  u ≠ "" →
  rejected "Password is required." [] st (register salt req st).
Proof.
  intros Hm Hu Hp Hne. rewrite (register_post _ _ _ _ _ Hm Hu Hp).
  destruct (get_db_frame st) as (Hst & Hse & Hfl & Hlog & _ & _).
  rewrite (bind_Ok _ _ _ _ _ (register_validate_no_password _ _ Hne)).
  rewrite register_finish_error. unfold rejected. cbn [fst snd].
  rewrite flashed_flashes, flashed_session. unfold_session. simpl.
  by rewrite get_db_flask_session, Hst, Hlog, app_nil_r.
Qed.

Lemma register_rejected_taken salt req st u p r :
  method req = "POST" →
  form req !! "username" = Some u → form req !! "password" = Some p →
  no_transaction st → u ≠ "" → p ≠ "" →
  fetchone (select_where_username u (store st)) = Some r →
  rejected ("User " +:+ u +:+ " is already registered.")
    [SELECT_id_WHERE_username u] st (register salt req st).
Proof.
  intros Hm Hu Hp Hnt Hune Hpne Hsel.
  rewrite (register_post _ _ _ _ _ Hm Hu Hp).
  destruct (get_db_frame st) as (Hst & Hse & Hfl & Hlog & _ & Hcur).
  rewrite (bind_Ok _ _ _ _ _ (register_validate_select _ _ _ Hune Hpne)).
  rewrite Hcur, (no_transaction_current_db _ Hnt), Hsel.
  rewrite register_finish_error. unfold rejected. cbn [fst snd].
  rewrite flashed_flashes, flashed_session. unfold_session. simpl.
  by rewrite get_db_flask_session, Hst, Hlog.
Qed.

(** C2. A register POST runs its checks in order and the first that fails
    gives the one message flashed: an empty username gives
    "Username is required.", whatever the password; otherwise an empty
    password gives "Password is required."; otherwise a row with that
    username in the store gives "User {username} is already registered.".
    With an empty field no statement is sent to the database, so the
    outcome does not depend on what the store holds; in the third case
    the one statement sent is the SELECT.  In all three the form is
    rendered again, and the store and the entries of the session other
    than the flash queue are as before. *)
Theorem register_validation_order salt req st u p :
  method req = "POST" →
  form req !! "username" = Some u → form req !! "password" = Some p →
  no_transaction st →
  (u = "" →
     rejected "Username is required." [] st (register salt req st)) ∧
  (u ≠ "" → p = "" →
     rejected "Password is required." [] st (register salt req st)) ∧
  (u ≠ "" → p ≠ "" →
     ∀ r, fetchone (select_where_username u (store st)) = Some r →
     rejected ("User " +:+ u +:+ " is already registered.")
       [SELECT_id_WHERE_username u] st (register salt req st)).
Proof.
  intros Hm Hu Hp Hnt. split; [|split].
  - intros ->. by eapply register_rejected_no_username.
  - intros Hne ->. by eapply register_rejected_no_password.
  - intros Hune Hpne r Hsel. by eapply register_rejected_taken.
Qed.

(** A register POST with a free username: the row is inserted and
    committed, and the response is the redirect to the login view. *)
Lemma register_accepted salt req st u p :
  method req = "POST" →
  form req !! "username" = Some u → form req !! "password" = Some p →
  no_transaction st → u ≠ "" → p ≠ "" →
  fetchone (select_where_username u (store st)) = None →
  fst (register salt req st) = Ok (Redirect "/auth/login") ∧
  store (snd (register salt req st)) =
    {| user := user (store st) ++
         [UserRow (next_rowid (store st)) u (generate_password_hash salt p)];
       sqlite_sequence := next_rowid (store st) |} ∧
  flashes (snd (register salt req st)) = flashes st ∧
  sql_log (snd (register salt req st)) =
    sql_log st ++ [SELECT_id_WHERE_username u;
                   INSERT_user u (generate_password_hash salt p); COMMIT] ∧
  no_transaction (snd (register salt req st)) ∧
  flask_session (snd (register salt req st)) = flask_session st.
Proof.
  intros Hm Hu Hp Hnt Hune Hpne Hsel.
  rewrite (register_post _ _ _ _ _ Hm Hu Hp).
  destruct (get_db_frame st) as (Hst & Hse & Hfl & Hlog & _ & Hcur).
  rewrite (no_transaction_current_db _ Hnt) in Hcur.
  rewrite (bind_Ok _ _ _ _ _ (register_validate_select _ _ _ Hune Hpne)).
  rewrite Hcur, Hsel.
  erewrite register_finish_insert; last first.
  { change (current_db (log ?q ?s)) with (current_db s).
    rewrite Hcur. by apply insert_user_free. }
  unfold_session. simpl.
  by rewrite get_db_flask_session, Hlog, <-!app_assoc.
Qed.





(** C8, as the code has it. For a username that a row of the store
    carries, a register POST is rejected whatever the password: the form is
    rendered again with one message flashed, the store (every row, every
    password hash, the id counter) is as before, after the view and after
    the whole request, and the only statement the view can have sent is
    the SELECT of the pre-check.  The message is
    "User {username} is already registered." when username and password
    are both non-empty. *)
Theorem register_taken_keeps_store salt req st u p :
  method req = "POST" →
  form req !! "username" = Some u → form req !! "password" = Some p →
  no_transaction st →
  u ∈ row_username <$> user (store st) →
  fst (register salt req st) = Ok (Render "auth/register.html") ∧
  store (snd (register salt req st)) = store st ∧
  (∃ msg, flashes (snd (register salt req st)) = flashes st ++ [msg] ∧
     (u ≠ "" → p ≠ "" → msg = "User " +:+ u +:+ " is already registered.")) ∧
  (sql_log (snd (register salt req st)) = sql_log st ∨
   sql_log (snd (register salt req st)) =
     sql_log st ++ [SELECT_id_WHERE_username u]) ∧
  store (snd (dispatch (register salt req) st)) = store st.
Proof.
  intros Hm Hu Hp Hnt Hin.
  assert (∀ st, no_transaction st → u ∈ row_username <$> user (store st) →
    ∃ msg qs, rejected msg qs st (register salt req st) ∧
      (qs = [] ∨ qs = [SELECT_id_WHERE_username u]) ∧
      (u ≠ "" → p ≠ "" → msg = "User " +:+ u +:+ " is already registered."))
    as Hrej.
  { clear st Hnt Hin. intros st Hnt Hin.
    destruct (decide (u = "")) as [->|Hune].
    { eexists _, _. split; [by eapply register_rejected_no_username|].
      split; [by left|done]. }
    destruct (decide (p = "")) as [->|Hpne].
    { eexists _, _. split; [by eapply register_rejected_no_password|].
      split; [by left|done]. }
    destruct (fetchone (select_where_username u (store st))) as [r|] eqn:Hsel.
    - eexists _, _. split; [by eapply register_rejected_taken|].
      split; [by right|done].
    - by apply fetchone_username_None in Hsel. }
  destruct (Hrej st Hnt Hin) as (msg & qs & (Hr & Hfl & Hlog & Hst & _) & Hqs & Hmsg).
  split; [done|]. split; [done|]. split; [by exists msg|]. split.
  { destruct Hqs as [->| ->]; [left; by rewrite Hlog, app_nil_r|by right]. }
  rewrite dispatch_run. simpl.
  destruct (load_logged_in_user_frame st) as (_ & Hst0 & _ & _ & Hnt0 & _).
  simpl in Hst0, Hnt0.
  destruct (Hrej _ Hnt0) as (? & ? & (_ & _ & _ & Hst' & _) & _);
    [by rewrite Hst0|]. by rewrite Hst', Hst0.
Qed.

(** C4, as the code has it. When another request commits a row with the
    same username after this request's pre-check found none and before its
    INSERT, the INSERT raises [IntegrityError] and nothing catches it: the
    view does not return a response, flashes nothing, and leaves the
    session and the rows committed by the other request as they are. *)
Theorem register_race_raises env salt req st u p :
  method req = "POST" →
  form req !! "username" = Some u → form req !! "password" = Some p →
  no_transaction st → u ≠ "" → p ≠ "" →
  fetchone (select_where_username u (store st)) = None →
  u ∈ row_username <$> user (env (store st)) →
  fst (register_interleaved env salt req st) = Raise IntegrityError ∧
  flashes (snd (register_interleaved env salt req st)) = flashes st ∧
  session (snd (register_interleaved env salt req st)) = session st ∧
  store (snd (register_interleaved env salt req st)) = env (store st).
Proof.
  intros Hm Hu Hp Hnt Hune Hpne Hsel Hrace.
  rewrite (register_interleaved_post _ _ _ _ _ _ Hm Hu Hp).
  destruct (get_db_frame st) as (Hst & Hse & Hfl & Hlog & _ & Hcur).
  pose proof (get_db_no_transaction _ Hnt) as Hnt1.
  rewrite (no_transaction_current_db _ Hnt) in Hcur.
  rewrite (bind_Ok _ _ _ _ _ (register_validate_select _ _ _ Hune Hpne)).
  rewrite Hcur, Hsel.
  erewrite bind_Ok; [|done].
  rewrite register_finish_conflict;
    [by unfold_session; simpl; rewrite get_db_flask_session, Hst|].
  unfold insert_user. rewrite decide_True; [done|].
  revert Hnt1 Hrace. unfold no_transaction, current_db. simpl. rewrite Hst.
  by destruct (g_db (snd (get_db st))) as [[|?]|].
Qed.

(** With nothing committed in between, the interleaved view is the view. *)
Lemma register_interleaved_id salt req st :
  register_interleaved id salt req st = register salt req st.
Proof.
  unfold register_interleaved, register. case_decide; [|done].
  unfold form_get. destruct (form req !! "username") as [u|]; [|done].
  destruct (form req !! "password") as [p|]; [|done].
  unfold_M. destruct (get_db st) as [[[]|?] st1]; [|done].
  destruct (register_validate u p st1) as [[e|?] st2]; [|done].
  by destruct st2.
Qed.
End register.

(** ** Login *)

Section login.
Context `{Hasher}.
Implicit Types (req : request) (st : state) (u p : string).

(** A login POST that carries both fields, by the row the SELECT finds and
    by what the hasher says. *)
Lemma login_post req st u p :
  method req = "POST" →
  form req !! "username" = Some u → form req !! "password" = Some p →
  login req st =
    let st1 := log (SELECT_all_WHERE_username u) (snd (get_db st)) in
    match fetchone (select_where_username u (current_db st)) with
    | None =>
        (Ok (Render "auth/login.html"),
         flashed "Incorrect username." st1)
    | Some r =>
        if check_password_hash (row_password r) p
        then (Ok (Redirect "/"),
              set_flask_session
                (SessionDict (<["user_id" := row_id r]> ∅) None) st1)
        else (Ok (Render "auth/login.html"),
              flashed "Incorrect password." st1)
    end.
Proof.
  intros Hm Hu Hp. unfold login, form_get.
  rewrite decide_True, Hu, Hp by done.
  destruct (get_db_frame st) as (_ & _ & _ & _ & _ & Hcur).
  unfold_M. unfold execute_select_all_where_username.
  destruct (get_db st) as [[[]|?] st1] eqn:Hdb;
    [|by unfold get_db in Hdb; destruct (g_db st)].
  simpl in *. rewrite Hcur.
  destruct (fetchone _) as [r|]; [|done].
  by destruct (check_password_hash _ _).
Qed.

(** C3. A login POST: with no row for the submitted username the message
    is "Incorrect username."; with a row whose stored hash the submitted
    password does not verify against the message is "Incorrect password.";
    otherwise the session is cleared and then given ["user_id"], the id of
    the row found, so that it is the dictionary with that one entry, no
    earlier key and no queued message surviving, and the response is the
    redirect to the home view. *)
Theorem login_post_outcome req st u p :
  method req = "POST" →
  form req !! "username" = Some u → form req !! "password" = Some p →
  no_transaction st →
  (fetchone (select_where_username u (store st)) = None →
     fst (login req st) = Ok (Render "auth/login.html") ∧
     flashes (snd (login req st)) = flashes st ++ ["Incorrect username."]) ∧
  (∀ r, fetchone (select_where_username u (store st)) = Some r →
     check_password_hash (row_password r) p = false →
     fst (login req st) = Ok (Render "auth/login.html") ∧
     flashes (snd (login req st)) = flashes st ++ ["Incorrect password."]) ∧
  (∀ r, fetchone (select_where_username u (store st)) = Some r →
     check_password_hash (row_password r) p = true →
     fst (login req st) = Ok (Redirect "/") ∧
     flask_session (snd (login req st)) =
       SessionDict (<["user_id" := row_id r]> ∅) None ∧
     session (snd (login req st)) = <["user_id" := row_id r]> ∅ ∧
     session (snd (login req st)) !! "user_id" = Some (row_id r) ∧
     (∀ k, k ≠ "user_id" → session (snd (login req st)) !! k = None) ∧
     flashes (snd (login req st)) = []).
Proof.
  intros Hm Hu Hp Hnt. rewrite (login_post _ _ _ _ Hm Hu Hp).
  rewrite (no_transaction_current_db _ Hnt). cbn zeta.
  split; [|split].
  - intros ->. cbn [fst snd]. rewrite flashed_flashes.
    unfold_session. simpl. by rewrite get_db_flask_session.
  - intros r -> ->. cbn [fst snd]. rewrite flashed_flashes.
    unfold_session. simpl. by rewrite get_db_flask_session.
  - intros r -> ->. unfold_session. simpl.
    split; [done|]. split; [done|]. split; [done|].
    split; [by rewrite lookup_insert_eq|].
    split; [|done]. intros k Hk. by rewrite lookup_insert_ne.
Qed.


End login.

(** ** Register, then log in *)

Section register_login.
Context `{Hasher}.
Implicit Types (req : request) (st : state) (u p salt : string).

(** The whole register request, for a free username. *)
Lemma dispatch_register_accepted salt req st u p :
  method req = "POST" →
  form req !! "username" = Some u → form req !! "password" = Some p →
  u ≠ "" → p ≠ "" →
  fetchone (select_where_username u (store st)) = None →
  fst (dispatch (register salt req) st) = Ok (Redirect "/auth/login") ∧
  store (snd (dispatch (register salt req) st)) =
    {| user := user (store st) ++
         [UserRow (next_rowid (store st)) u (generate_password_hash salt p)];
       sqlite_sequence := next_rowid (store st) |}.
Proof.
  intros Hm Hu Hp Hune Hpne Hfree.
  destruct (load_logged_in_user_frame st) as (_ & Hst0 & _ & _ & Hnt0 & _).
  simpl in Hst0, Hnt0. rewrite <-Hst0 in Hfree.
  destruct (register_accepted salt req _ u p Hm Hu Hp Hnt0 Hune Hpne Hfree)
    as (Hr & Hst & _).
  rewrite dispatch_run. simpl. by rewrite Hr, Hst, Hst0.
Qed.

(** The whole login request, for a row that verifies. *)
Lemma dispatch_login_accepted req st u p r :
  method req = "POST" →
  form req !! "username" = Some u → form req !! "password" = Some p →
  fetchone (select_where_username u (store st)) = Some r →
  check_password_hash (row_password r) p = true →
  fst (dispatch (login req) st) = Ok (Redirect "/") ∧
  session (snd (dispatch (login req) st)) = <["user_id" := row_id r]> ∅ ∧
  store (snd (dispatch (login req) st)) = store st.
Proof.
  intros Hm Hu Hp Hsel Hcheck.
  destruct (load_logged_in_user_frame st) as (_ & Hst0 & _ & _ & Hnt0 & _).
  simpl in Hst0, Hnt0.
  rewrite dispatch_run, (login_post _ _ _ _ Hm Hu Hp).
  rewrite (no_transaction_current_db _ Hnt0), Hst0, Hsel, Hcheck. simpl.
  destruct (get_db_frame (snd (load_logged_in_user (push_app_context st))))
    as (Hst1 & _).
  by rewrite Hst1, Hst0.
Qed.

(** C1. For a non-empty username that no row of the store carries and a
    non-empty password: the register POST redirects to the login view and
    commits one new row, with the next id, that username and the hash of
    that password; a login POST with the same username and password then
    redirects to the home view and leaves a session that holds exactly
    ["user_id"], set to the id of the new row; and the request after that
    is given the new row as its identity. *)
Theorem register_then_login salt req1 req2 st u p :
  method req1 = "POST" →
  form req1 !! "username" = Some u → form req1 !! "password" = Some p →
  method req2 = "POST" →
  form req2 !! "username" = Some u → form req2 !! "password" = Some p →
  u ≠ "" → p ≠ "" →
  fetchone (select_where_username u (store st)) = None →
  let new := UserRow (next_rowid (store st)) u (generate_password_hash salt p) in
  let registered := dispatch (register salt req1) st in
  let logged_in := dispatch (login req2) (snd registered) in
  fst registered = Ok (Redirect "/auth/login") ∧
  user (store (snd registered)) = user (store st) ++ [new] ∧
  fst logged_in = Ok (Redirect "/") ∧
  session (snd logged_in) = <["user_id" := row_id new]> ∅ ∧
  hydrate (snd logged_in) = Some (Some new).
Proof.
  intros Hm1 Hu1 Hp1 Hm2 Hu2 Hp2 Hune Hpne Hfree. simpl.
  destruct (dispatch_register_accepted salt req1 st u p) as (Hr1 & Hst1); [done..|].
  pose proof (select_username_inserted u (generate_password_hash salt p)
    (store st) Hfree) as Hsel.
  rewrite <-Hst1 in Hsel.
  destruct (dispatch_login_accepted req2 _ u p _ Hm2 Hu2 Hp2 Hsel)
    as (Hr2 & Hse2 & Hst2); [apply check_generate|].
  split; [done|]. split; [by rewrite Hst1|]. split; [done|]. split; [done|].
  rewrite hydrate_eq, Hse2, Hst2, Hst1, lookup_insert_eq. simpl.
  by rewrite select_id_inserted.
Qed.
End register_login.

(** ** The keys of the schema are kept by every request *)

Section invariant.
Context `{Hasher}.
Implicit Types (req : request) (st : state).

Lemma login_store req : preserves store (login req).
Proof.
  unfold login, execute_select_all_where_username, flash, render_template,
    redirect.
  frame.
Qed.

Lemma logout_store : preserves store logout.
Proof. unfold logout, redirect. frame. Qed.

(** Register either leaves the store alone or commits one accepted insert. *)
Lemma register_store salt req st :
  no_transaction st →
  store (snd (register salt req st)) = store st ∨
  ∃ u h, insert_user u h (store st) = Some (store (snd (register salt req st))).
Proof.
  intros Hnt. destruct (decide (method req = "POST")) as [Hm|Hm];
    [|left; unfold register; by rewrite decide_False].
  destruct (form req !! "username") as [u|] eqn:Hu;
    [|left; unfold register, form_get; by rewrite decide_True, Hu].
  destruct (form req !! "password") as [p|] eqn:Hp;
    [|left; unfold register, form_get; by rewrite decide_True, Hu, Hp].
  destruct (decide (u = "")) as [->|Hune];
    [left; by eapply register_rejected_no_username|].
  destruct (decide (p = "")) as [->|Hpne];
    [left; by eapply register_rejected_no_password|].
  destruct (fetchone (select_where_username u (store st))) as [r|] eqn:Hsel;
    [left; by eapply register_rejected_taken|].
  right. exists u, (generate_password_hash salt p).
  destruct (register_accepted salt req st u p) as (_ & -> & _); [done..|].
  by apply insert_user_free.
Qed.

(** X17. Whatever the three views are sent, a table in which ids and
    usernames are unique has unique ids and usernames after the request. *)
Lemma dispatch_well_formed salt req st :
  well_formed (store st) →
  well_formed (store (snd (dispatch (register salt req) st))) ∧
  well_formed (store (snd (dispatch (login req) st))) ∧
  well_formed (store (snd (dispatch logout st))).
Proof.
  intros Hwf.
  destruct (load_logged_in_user_frame st) as (_ & Hst0 & _ & _ & Hnt0 & _).
  simpl in Hst0, Hnt0. rewrite !dispatch_run. cbn [snd].
  change (store (pop_app_context (snd (close_db ?s)))) with (store s).
  rewrite login_store, logout_store, Hst0. split; [|done].
  destruct (register_store salt req _ Hnt0) as [->|(u & h & Hins)].
  - by rewrite Hst0.
  - rewrite Hst0 in Hins. by eapply insert_user_well_formed.
Qed.
End invariant.

(** ** The properties on concrete requests *)

(** Alice registers on a fresh database, logs in, and is recognised. *)
Lemma register_then_login_witness :
  let registered :=
    dispatch (register (H:=plain_hasher) "s" (post "alice" "secret1")) st_empty in
  let logged_in :=
    dispatch (login (H:=plain_hasher) (post "alice" "secret1")) (snd registered) in
  fetchone (select_where_username "alice" (store st_empty)) = None ∧
  fst registered = Ok (Redirect "/auth/login") ∧
  user (store (snd registered)) = [alice] ∧
  fst logged_in = Ok (Redirect "/") ∧
  session (snd logged_in) = <["user_id" := 1%Z]> ∅ ∧
  hydrate (snd logged_in) = Some (Some alice).
Proof.
  split; [reflexivity|].
  apply (register_then_login (H:=plain_hasher) "s"
           (post "alice" "secret1") (post "alice" "secret1") st_empty
           "alice" "secret1");
    first [reflexivity | discriminate].
Defined.

(** The three validation errors of register, each on its own request. *)
Lemma register_validation_order_witness :
  rejected "Username is required." [] st_alice
    (register (H:=plain_hasher) "s" (post "" "") st_alice) ∧
  rejected "Password is required." [] st_alice
    (register (H:=plain_hasher) "s" (post "bob" "") st_alice) ∧
  rejected "User alice is already registered."
    [SELECT_id_WHERE_username "alice"] st_alice
    (register (H:=plain_hasher) "s" (post "alice" "secret2") st_alice).
Proof.
  split; [|split].
  - apply (register_validation_order (H:=plain_hasher) "s" (post "" "")
             st_alice "" ""); first [reflexivity | exact I].
  - apply (register_validation_order (H:=plain_hasher) "s" (post "bob" "")
             st_alice "bob" "");
      first [reflexivity | exact I | discriminate].
  - apply (register_validation_order (H:=plain_hasher) "s"
             (post "alice" "secret2") st_alice "alice" "secret2")
      with (r := alice);
      first [reflexivity | exact I | discriminate].
Defined.

(** The three outcomes of a login POST; the successful one starts from a
    session that held another key and a queued message. *)
Lemma login_post_outcome_witness :
  (fst (login (H:=plain_hasher) (post "bob" "hunter2") st_alice)
     = Ok (Render "auth/login.html") ∧
   flashes (snd (login (H:=plain_hasher) (post "bob" "hunter2") st_alice))
     = ["Incorrect username."]) ∧
  (fst (login (H:=plain_hasher) (post "alice" "wrong") st_alice)
     = Ok (Render "auth/login.html") ∧
   flashes (snd (login (H:=plain_hasher) (post "alice" "wrong") st_alice))
     = ["Incorrect password."]) ∧
  (session st_alice_pending !! "theme" = Some 7%Z ∧
   flashes st_alice_pending = ["Incorrect password."] ∧
   fst (login (H:=plain_hasher) (post "alice" "secret1") st_alice_pending)
     = Ok (Redirect "/") ∧
   flask_session
     (snd (login (H:=plain_hasher) (post "alice" "secret1") st_alice_pending))
     = SessionDict (<["user_id" := 1%Z]> ∅) None ∧
   session (snd (login (H:=plain_hasher) (post "alice" "secret1") st_alice_pending))
     !! "theme" = None ∧
   flashes (snd (login (H:=plain_hasher) (post "alice" "secret1") st_alice_pending))
     = []).
Proof.
  split; [|split].
  - apply (login_post_outcome (H:=plain_hasher) (post "bob" "hunter2")
             st_alice "bob" "hunter2");
      first [reflexivity | exact I].
  - apply (login_post_outcome (H:=plain_hasher) (post "alice" "wrong")
             st_alice "alice" "wrong") with (r := alice);
      first [reflexivity | exact I].
  - split; [reflexivity|]. split; [reflexivity|].
    destruct (login_post_outcome (H:=plain_hasher) (post "alice" "secret1")
                st_alice_pending "alice" "secret1" eq_refl eq_refl eq_refl I)
      as (_ & _ & Hok).
    destruct (Hok alice eq_refl eq_refl) as (Hr & Hfs & _ & _ & Hother & Hfl).
    split; [exact Hr|]. split; [exact Hfs|]. split; [|exact Hfl].
    apply Hother. discriminate.
Defined.

(** Hydration without a cookie, with a stale cookie and with alice's. *)
Lemma load_logged_in_user_identity_witness :
  (session st_alice !! "user_id" = None ∧ hydrate st_alice = Some None) ∧
  (session st_stale !! "user_id" = Some 5%Z ∧ hydrate st_stale = Some None) ∧
  (session st_alice_in !! "user_id" = Some 1%Z ∧
   hydrate st_alice_in = Some (Some alice)).
Proof.
  split; [|split]; (split; [reflexivity|]).
  - apply (load_logged_in_user_identity st_alice). reflexivity.
  - destruct (load_logged_in_user_identity st_stale) as (_ & _ & Hstale & _).
    apply (Hstale 5%Z); [reflexivity|].
    intros r [->|[]%elem_of_nil]%elem_of_cons. discriminate.
  - destruct (load_logged_in_user_identity st_alice_in) as (_ & _ & _ & Hrow).
    apply (Hrow 1%Z alice); [reflexivity|left|reflexivity|].
    apply NoDup_singleton.
Defined.

(** The guard in front of a view that flashes: anonymous, the queue stays
    empty; as alice, the view runs. *)
Lemma login_required_guard_witness :
  (login_required create_view () (set_g_user (Some None) st_alice)
     = (Ok (Redirect "/auth/login"), set_g_user (Some None) st_alice) ∧
   flashes (snd (login_required create_view ()
     (set_g_user (Some None) st_alice))) = []) ∧
  (fst (login_required create_view () (set_g_user (Some (Some alice)) st_alice_in))
     = Ok (Render "blog/create.html") ∧
   flashes (snd (login_required create_view ()
     (set_g_user (Some (Some alice)) st_alice_in))) = ["create ran"]) ∧
  (fst (dispatch (login_required create_view ()) st_alice)
     = Ok (Redirect "/auth/login") ∧
   flashes (snd (dispatch (login_required create_view ()) st_alice)) = []) ∧
  (fst (dispatch (login_required create_view ()) st_alice_in)
     = Ok (Render "blog/create.html")).
Proof.
  pose proof (login_required_guard create_view ()
    (set_g_user (Some None) st_alice)) as (Hanon & _).
  pose proof (login_required_guard create_view ()
    (set_g_user (Some (Some alice)) st_alice_in)) as (_ & Hauth & _).
  pose proof (login_required_guard create_view () st_alice)
    as (_ & _ & Hanon' & _).
  pose proof (login_required_guard create_view () st_alice_in)
    as (_ & _ & _ & Hauth').
  split; [|split; [|split]].
  - destruct (Hanon eq_refl) as [Hrun _]. split; [exact Hrun|].
    rewrite Hrun. reflexivity.
  - rewrite (Hauth alice eq_refl). split; reflexivity.
  - destruct (Hanon' eq_refl) as [Hrun _]. split; [exact Hrun|reflexivity].
  - rewrite (Hauth' alice eq_refl). reflexivity.
Defined.



(** Logout without a session changes nothing; logout of alice, with
    another key and a queued message in her session, leaves the empty
    dictionary. *)
Lemma logout_clears_session_witness :
  (flask_session st_alice = empty_session ∧
   logout st_alice = (Ok (Redirect "/"), st_alice)) ∧
  (hydrate st_alice_pending = Some (Some alice) ∧
   flashes st_alice_pending = ["Incorrect password."] ∧
   fst (dispatch logout st_alice_pending) = Ok (Redirect "/") ∧
   flask_session (snd (dispatch logout st_alice_pending)) = SessionDict ∅ None ∧
   hydrate (snd (dispatch logout st_alice_pending)) = Some None).
Proof.
  split.
  - split; [reflexivity|].
    destruct (logout_clears_session st_alice) as (_ & _ & _ & _ & Hnoop & _).
    apply Hnoop. reflexivity.
  - split; [reflexivity|]. split; [reflexivity|].
    destruct (logout_clears_session st_alice_pending)
      as (_ & _ & _ & _ & _ & _ & _ & Hr & Hfs & Hh).
    split; [exact Hr|]. split; [exact Hfs|exact Hh].
Defined.



(** A second registration as alice, with another password. *)
Lemma register_taken_keeps_store_witness :
  "alice" ∈ row_username <$> user (store st_alice) ∧
  fst (register (H:=plain_hasher) "s" (post "alice" "secret2") st_alice)
    = Ok (Render "auth/register.html") ∧
  store (snd (register (H:=plain_hasher) "s" (post "alice" "secret2") st_alice))
    = store st_alice ∧
  store (snd (dispatch (register (H:=plain_hasher) "s" (post "alice" "secret2"))
    st_alice)) = store st_alice.
Proof.
  assert ("alice" ∈ row_username <$> user (store st_alice)) as Hin by left.
  split; [exact Hin|].
  destruct (register_taken_keeps_store (H:=plain_hasher) "s"
              (post "alice" "secret2") st_alice "alice" "secret2"
              eq_refl eq_refl eq_refl I Hin)
    as (Hr & Hst & _ & _ & Hd).
  split; [exact Hr|]. split; [exact Hst|exact Hd].
Defined.

(** C8, as the claim has it, fails: alice is registered, and a second
    registration as alice with an empty password is rejected with
    "Password is required.", not with the already-registered message. *)
Lemma register_taken_counterexample :
  "alice" ∈ row_username <$> user (store st_alice) ∧
  flashes (snd (register (H:=plain_hasher) "s" (post "alice" "") st_alice))
    = ["Password is required."] ∧
  flashes (snd (register (H:=plain_hasher) "s" (post "alice" "") st_alice))
    ≠ flashes st_alice ++ ["User alice is already registered."].
Proof. split; [left|]. split; [reflexivity|discriminate]. Qed.

(** Bob registers while another visitor's registration as bob is between
    its SELECT and its INSERT. *)
Lemma register_race_raises_witness :
  fetchone (select_where_username "bob" (store st_alice)) = None ∧
  "bob" ∈ row_username <$> user (bob_registers (store st_alice)) ∧
  fst (register_interleaved (H:=plain_hasher) bob_registers "s"
    (post "bob" "pw") st_alice) = Raise IntegrityError ∧
  flashes (snd (register_interleaved (H:=plain_hasher) bob_registers "s"
    (post "bob" "pw") st_alice)) = [].
Proof.
  assert ("bob" ∈ row_username <$> user (bob_registers (store st_alice))) as Hin
    by (right; left).
  split; [reflexivity|]. split; [exact Hin|].
  destruct (register_race_raises (H:=plain_hasher) bob_registers "s"
              (post "bob" "pw") st_alice "bob" "pw")
    as (Hr & Hfl & _); first [reflexivity | exact I | discriminate | exact Hin | idtac].
  split; [exact Hr|exact Hfl].
Defined.

(** C4, as the claim has it, fails: the pre-check finds no bob, bob is
    committed by another request, the INSERT conflicts, and the view raises
    instead of rendering the form with the already-registered message. *)
Lemma register_race_counterexample :
  fetchone (select_where_username "bob" (store st_alice)) = None ∧
  insert_user "bob" (generate_password_hash (Hasher:=plain_hasher) "s" "pw")
    (bob_registers (store st_alice)) = None ∧
  fst (register_interleaved (H:=plain_hasher) bob_registers "s"
    (post "bob" "pw") st_alice) = Raise IntegrityError ∧
  fst (register_interleaved (H:=plain_hasher) bob_registers "s"
    (post "bob" "pw") st_alice) ≠ Ok (Render "auth/register.html") ∧
  flashes (snd (register_interleaved (H:=plain_hasher) bob_registers "s"
    (post "bob" "pw") st_alice))
    ≠ flashes st_alice ++ ["User bob is already registered."].
Proof. repeat split; first [reflexivity | discriminate]. Qed.


(** * Further properties of the views and of the connection *)

(** ** flaskr/db.py: the connection of a request *)

(** X1. [get_db] always returns, leaves a connection in [g], and reuses the
    one that is there: with a connection in [g] it changes nothing, so a
    second call in the same request is the first one again, and what the
    request reads from the database is the same before and after. *)
Theorem get_db_reuses_connection (st : state) :
  fst (get_db st) = Ok tt ∧
  is_Some (g_db (snd (get_db st))) ∧
  (∀ c, g_db st = Some c → get_db st = (Ok tt, st)) ∧
  get_db (snd (get_db st)) = get_db st ∧
  current_db (snd (get_db st)) = current_db st ∧
  store (snd (get_db st)) = store st.
Proof.
  unfold get_db, current_db.
  destruct st as [d s [c|] g l]; simpl; repeat split; eauto;
    by intros c' [=].
Qed.

(** X2. [close_db] takes the connection out of [g] and never touches the
    committed database, so whatever the connection had not committed is no
    longer read.  Without a connection it does nothing at all; after a
    [get_db] that had to connect it gives back the state from before; and
    closing twice is closing once. *)
Theorem close_db_releases (st : state) :
  fst (close_db st) = Ok tt ∧
  g_db (snd (close_db st)) = None ∧
  store (snd (close_db st)) = store st ∧
  current_db (snd (close_db st)) = store st ∧
  (g_db st = None → close_db st = (Ok tt, st)) ∧
  (g_db st = None → snd (close_db (snd (get_db st))) = st) ∧
  close_db (snd (close_db st)) = close_db st.
Proof.
  unfold close_db, get_db, modify, current_db.
  destruct st as [d s c g l]; simpl. repeat split; by intros ->.
Qed.

(** ** flaskr/auth.py: the hook *)

(** X3. [load_logged_in_user] only reads: from any state it returns
    normally, sets [g.user], leaves the store, the session and the flash
    queue as they are, and sends no statement when the session has no
    ["user_id"] and exactly one, the SELECT by that id, when it has. *)
Theorem load_logged_in_user_read_only (st : state) :
  fst (load_logged_in_user st) = Ok tt ∧
  is_Some (g_user (snd (load_logged_in_user st))) ∧
  store (snd (load_logged_in_user st)) = store st ∧
  session (snd (load_logged_in_user st)) = session st ∧
  flashes (snd (load_logged_in_user st)) = flashes st ∧
  sql_log (snd (load_logged_in_user st)) =
    sql_log st ++
      (if session st !! "user_id" is Some i then [SELECT_all_WHERE_id i] else []).
Proof.
  unfold load_logged_in_user. unfold_M.
  destruct (session st !! "user_id") as [i|]; simpl.
  - unfold get_db, execute_select_all_where_id.
    destruct st as [d s [c|] g l]; simpl; repeat split; eauto.
  - rewrite app_nil_r. repeat split; eauto.
Qed.

(** ** flaskr/auth.py: the guard *)

(** X4. Wrapping a view twice is wrapping it once: the second guard never
    changes the response or the effects, whatever [g.user] is. *)
Theorem login_required_idempotent {K} (view : K → M response) (kwargs : K)
    (st : state) :
  login_required (login_required view) kwargs st = login_required view kwargs st.
Proof.
  destruct (g_user st) as [[u|]|] eqn:Hg.
  - by rewrite !(login_required_authenticated _ _ _ u Hg).
  - by rewrite !(login_required_anonymous _ _ _ Hg).
  - unfold login_required. unfold_M. by rewrite Hg.
Qed.

(** ** flaskr/auth.py: the views on every request *)

Section views.
Context `{Hasher}.
Implicit Types (req : request) (st : state) (u p salt : string).


(** X6. A POST without a field raises [BadRequestKeyError] for the first
    field that is missing, ["username"] before ["password"], in [register]
    and in [login] alike, before anything else happens: the state is as it
    was, no connection, no statement, no message. *)
Theorem post_missing_field salt req st :
  method req = "POST" →
  (form req !! "username" = None →
     register salt req st = (Raise (BadRequestKeyError "username"), st) ∧
     login req st = (Raise (BadRequestKeyError "username"), st)) ∧
  (∀ u, form req !! "username" = Some u → form req !! "password" = None →
     register salt req st = (Raise (BadRequestKeyError "password"), st) ∧
     login req st = (Raise (BadRequestKeyError "password"), st)).
Proof.
  intros Hm. unfold register, login, form_get. rewrite !decide_True by done.
  split.
  - by intros ->.
  - by intros u -> ->.
Qed.

(** The possible results of [register] when no transaction is open. *)
Lemma register_result salt req st :
  no_transaction st →
  fst (register salt req st) = Ok (Render "auth/register.html") ∨
  fst (register salt req st) = Ok (Redirect "/auth/login") ∨
  fst (register salt req st) = Raise (BadRequestKeyError "username") ∨
  fst (register salt req st) = Raise (BadRequestKeyError "password").
Proof.
  intros Hnt. destruct (decide (method req = "POST")) as [Hm|Hm];
    [|left; unfold register; by rewrite decide_False].
  destruct (form req !! "username") as [u|] eqn:Hu;
    [|right; right; left; unfold register, form_get; by rewrite decide_True, Hu].
  destruct (form req !! "password") as [p|] eqn:Hp;
    [|do 3 right; unfold register, form_get; by rewrite decide_True, Hu, Hp].
  destruct (decide (u = "")) as [->|Hune];
    [left; by eapply register_rejected_no_username|].
  destruct (decide (p = "")) as [->|Hpne];
    [left; by eapply register_rejected_no_password|].
  destruct (fetchone (select_where_username u (store st))) as [r|] eqn:Hsel;
    [left; by eapply register_rejected_taken|].
  right; left. by eapply register_accepted.
Qed.

(** X7. A register request that runs alone ends in one of four ways: the
    form, the redirect to the login view, or [BadRequestKeyError] for one
    of the two fields.  In particular its INSERT never raises
    [IntegrityError]: the pre-check has made sure of the username. *)
Theorem register_alone_outcomes salt req st :
  fst (dispatch (register salt req) st) = Ok (Render "auth/register.html") ∨
  fst (dispatch (register salt req) st) = Ok (Redirect "/auth/login") ∨
  fst (dispatch (register salt req) st) = Raise (BadRequestKeyError "username") ∨
  fst (dispatch (register salt req) st) = Raise (BadRequestKeyError "password").
Proof.
  rewrite dispatch_run. cbn [fst]. apply register_result.
  apply load_logged_in_user_frame.
Qed.

(** X8. [login] ends in one of four ways from any state: the form, the
    redirect to the home view, or [BadRequestKeyError] for one of the two
    fields.  In particular the id of the row is never asked of a SELECT
    that found no row. *)
Theorem login_outcomes req st :
  fst (login req st) = Ok (Render "auth/login.html") ∨
  fst (login req st) = Ok (Redirect "/") ∨
  fst (login req st) = Raise (BadRequestKeyError "username") ∨
  fst (login req st) = Raise (BadRequestKeyError "password").
Proof.
  destruct (decide (method req = "POST")) as [Hm|Hm];
    [|left; unfold login; by rewrite decide_False].
  destruct (form req !! "username") as [u|] eqn:Hu;
    [|right; right; left; unfold login, form_get; by rewrite decide_True, Hu].
  destruct (form req !! "password") as [p|] eqn:Hp;
    [|do 3 right; unfold login, form_get; by rewrite decide_True, Hu, Hp].
  rewrite (login_post _ _ _ _ Hm Hu Hp). cbn zeta.
  destruct (fetchone _) as [r|]; [|by left].
  destruct (check_password_hash _ _); [by right; left|by left].
Qed.

(** X9. [login] never writes to the database: the store is as before in
    every case, and the only statement it can send is the SELECT for the
    submitted username. *)
Theorem login_read_only req st :
  store (snd (login req st)) = store st ∧
  (sql_log (snd (login req st)) = sql_log st ∨
   ∃ u, form req !! "username" = Some u ∧
        sql_log (snd (login req st)) =
          sql_log st ++ [SELECT_all_WHERE_username u]).
Proof.
  split; [apply login_store|].
  destruct (decide (method req = "POST")) as [Hm|Hm];
    [|left; unfold login; by rewrite decide_False].
  destruct (form req !! "username") as [u|] eqn:Hu;
    [|left; unfold login, form_get; by rewrite decide_True, Hu].
  destruct (form req !! "password") as [p|] eqn:Hp;
    [|left; unfold login, form_get; by rewrite decide_True, Hu, Hp].
  right. exists u. split; [done|].
  rewrite (login_post _ _ _ _ Hm Hu Hp). cbn zeta.
  destruct (get_db_frame st) as (_ & _ & _ & Hlog & _).
  destruct (fetchone _) as [r|]; [|by simpl; rewrite Hlog].
  destruct (check_password_hash _ _); by simpl; rewrite Hlog.
Qed.

(** X10. Register only ever appends: after a register request, whatever it
    was sent, the rows that were in the table are still there, unchanged
    and in the same order, followed by at most one new row. *)
Theorem register_appends_only salt req st :
  ∃ new, user (store (snd (dispatch (register salt req) st))) =
           user (store st) ++ new ∧ length new ≤ 1.
Proof.
  destruct (load_logged_in_user_frame st) as (_ & Hst0 & _ & _ & Hnt0 & _).
  simpl in Hst0, Hnt0. rewrite dispatch_run. cbn [snd].
  change (store (pop_app_context (snd (close_db ?s)))) with (store s).
  destruct (register_store salt req _ Hnt0) as [->|(u & h & Hins)].
  - exists []. rewrite Hst0, app_nil_r. split; [done|simpl; lia].
  - rewrite Hst0 in Hins. unfold insert_user in Hins.
    case_decide; [done|]. injection Hins as <-.
    eexists [_]. split; [done|simpl; lia].
Qed.
End views.

(** ** Requests one after the other *)

(** With unique ids, the SELECT by the id of a row of the table finds that
    row. *)
Lemma fetchone_id_key (d : database) (r : user_row) :
  NoDup (row_id <$> user d) → r ∈ user d →
  fetchone (select_where_id (row_id r) d) = Some r.
Proof.
  intros Hnd Hr.
  destruct (fetchone (select_where_id (row_id r) d)) as [r'|] eqn:Hsel.
  - apply fetchone_id_Some in Hsel as [Hr' Hid].
    f_equal. by apply (row_id_inj (user d)).
  - rewrite fetchone_id_None in Hsel. by destruct (Hsel r Hr).
Qed.

(** The guard in a whole request, by the identity the hook loads. *)
Lemma dispatch_guard_anonymous {K} (view : K → M response) (kwargs : K) st :
  hydrate st = Some None →
  dispatch (login_required view kwargs) st =
    (Ok (Redirect "/auth/login"),
     pop_app_context (snd (close_db
       (snd (load_logged_in_user (push_app_context st)))))).
Proof.
  intros Hh. destruct (load_logged_in_user_frame st) as (_ & _ & _ & _ & _ & Hg).
  simpl in Hg. rewrite Hh in Hg.
  by rewrite dispatch_run, (login_required_anonymous _ _ _ Hg).
Qed.

Lemma dispatch_guard_authenticated {K} (view : K → M response) (kwargs : K)
    st u :
  hydrate st = Some (Some u) →
  dispatch (login_required view kwargs) st = dispatch (view kwargs) st.
Proof.
  intros Hh. destruct (load_logged_in_user_frame st) as (_ & _ & _ & _ & _ & Hg).
  simpl in Hg. rewrite Hh in Hg.
  by rewrite !dispatch_run, (login_required_authenticated _ _ _ u Hg).
Qed.

(** X11. Whatever the session and the store were, after a logout request a
    guarded view is not run: the next request to it is answered with the
    redirect to the login view, its outcome does not depend on the view, and
    store, session and flash queue are as the logout left them. *)
Theorem logout_revokes_access {K} (view : K → M response) (kwargs : K)
    (st : state) :
  let out := dispatch (login_required view kwargs) (snd (dispatch logout st)) in
  fst out = Ok (Redirect "/auth/login") ∧
  store (snd out) = store (snd (dispatch logout st)) ∧
  session (snd out) = session (snd (dispatch logout st)) ∧
  flashes (snd out) = flashes (snd (dispatch logout st)) ∧
  ∀ view' : K → M response,
    dispatch (login_required view' kwargs) (snd (dispatch logout st)) = out.
Proof.
  assert (hydrate (snd (dispatch logout st)) = Some None) as Hh.
  { destruct (dispatch_logout_run st) as (_ & Hs & _).
    rewrite hydrate_eq. by rewrite Hs. }
  cbn zeta. rewrite (dispatch_guard_anonymous view kwargs _ Hh).
  destruct (load_logged_in_user_frame (snd (dispatch logout st)))
    as (_ & Hst & Hse & Hfl & _).
  repeat split; try done.
  intros view'. by rewrite (dispatch_guard_anonymous view' kwargs _ Hh).
Qed.

Section sequences.
Context `{Hasher}.
Implicit Types (req : request) (st : state) (u p salt : string).

(** X12. The id that a successful login writes to the session is read back
    by the hook of the next request as the row the login matched, when ids
    are unique as the primary key makes them. *)
Theorem login_then_hydrate req st u p r :
  method req = "POST" →
  form req !! "username" = Some u → form req !! "password" = Some p →
  fetchone (select_where_username u (store st)) = Some r →
  check_password_hash (row_password r) p = true →
  NoDup (row_id <$> user (store st)) →
  hydrate (snd (dispatch (login req) st)) = Some (Some r).
Proof.
  intros Hm Hu Hp Hsel Hcheck Hnd.
  destruct (dispatch_login_accepted req st u p r) as (_ & Hse & Hst); [done..|].
  rewrite hydrate_eq, Hse, Hst, lookup_insert_eq. simpl. f_equal.
  apply fetchone_id_key; [done|]. by apply fetchone_username_Some in Hsel as [? _].
Qed.

(** X13. After a successful login a guarded view is the view: the next
    request to it gives the response and the effects of the view itself. *)
Theorem login_grants_access {K} (view : K → M response) (kwargs : K)
    req st u p r :
  method req = "POST" →
  form req !! "username" = Some u → form req !! "password" = Some p →
  fetchone (select_where_username u (store st)) = Some r →
  check_password_hash (row_password r) p = true →
  dispatch (login_required view kwargs) (snd (dispatch (login req) st)) =
    dispatch (view kwargs) (snd (dispatch (login req) st)).
Proof.
  intros Hm Hu Hp Hsel Hcheck.
  destruct (dispatch_login_accepted req st u p r) as (_ & Hse & Hst); [done..|].
  apply fetchone_username_Some in Hsel as [Hr _].
  destruct (fetchone (select_where_id (row_id r) (store st))) as [r'|] eqn:Hid.
  - apply (dispatch_guard_authenticated _ _ _ r').
    rewrite hydrate_eq, Hse, Hst, lookup_insert_eq. simpl. by rewrite Hid.
  - rewrite fetchone_id_None in Hid. by destruct (Hid r Hr).
Qed.

(** A rejected registration as a whole request. *)
Lemma dispatch_register_taken salt req st u p r :
  method req = "POST" →
  form req !! "username" = Some u → form req !! "password" = Some p →
  u ≠ "" → p ≠ "" →
  fetchone (select_where_username u (store st)) = Some r →
  fst (dispatch (register salt req) st) = Ok (Render "auth/register.html") ∧
  store (snd (dispatch (register salt req) st)) = store st ∧
  flashes (snd (dispatch (register salt req) st)) =
    flashes st ++ ["User " +:+ u +:+ " is already registered."].
Proof.
  intros Hm Hu Hp Hune Hpne Hsel.
  destruct (load_logged_in_user_frame st) as (_ & Hst0 & _ & Hfl0 & Hnt0 & _).
  simpl in Hst0, Hfl0, Hnt0. rewrite <-Hst0 in Hsel.
  destruct (register_rejected_taken salt req _ u p r Hm Hu Hp Hnt0 Hune Hpne Hsel)
    as (Hr & Hfl & _ & Hst & _).
  rewrite dispatch_run. cbn [fst snd].
  change (store (pop_app_context (snd (close_db ?s)))) with (store s).
  change (flashes (pop_app_context (snd (close_db ?s)))) with (flashes s).
  by rewrite Hr, Hst, Hfl, Hst0, Hfl0.
Qed.

(** X14. Registering the same username twice: when the first request was
    accepted, a second one for that username, with any non-empty password
    and any salt, gets the form again with the already-registered message,
    and the store is what the first request left, so the first password
    hash stands. *)
Theorem register_twice salt1 salt2 req1 req2 st u p1 p2 :
  method req1 = "POST" →
  form req1 !! "username" = Some u → form req1 !! "password" = Some p1 →
  method req2 = "POST" →
  form req2 !! "username" = Some u → form req2 !! "password" = Some p2 →
  u ≠ "" → p1 ≠ "" → p2 ≠ "" →
  fetchone (select_where_username u (store st)) = None →
  let first := dispatch (register salt1 req1) st in
  let second := dispatch (register salt2 req2) (snd first) in
  fst first = Ok (Redirect "/auth/login") ∧
  fst second = Ok (Render "auth/register.html") ∧
  store (snd second) = store (snd first) ∧
  user (store (snd second)) = user (store st) ++
    [UserRow (next_rowid (store st)) u (generate_password_hash salt1 p1)] ∧
  flashes (snd second) =
    flashes (snd first) ++ ["User " +:+ u +:+ " is already registered."].
Proof.
  intros Hm1 Hu1 Hp1 Hm2 Hu2 Hp2 Hune Hp1ne Hp2ne Hfree. cbn zeta.
  destruct (dispatch_register_accepted salt1 req1 st u p1) as (Hr1 & Hst1);
    [done..|].
  pose proof (select_username_inserted u (generate_password_hash salt1 p1)
    (store st) Hfree) as Hsel.
  rewrite <-Hst1 in Hsel.
  destruct (dispatch_register_taken salt2 req2 _ u p2 _ Hm2 Hu2 Hp2 Hune Hp2ne Hsel)
    as (Hr2 & Hst2 & Hfl2).
  split; [done|]. split; [done|]. split; [done|]. split; [|done].
  by rewrite Hst2, Hst1.
Qed.



End sequences.

(** ** The flash queue *)

Section queue.
Context `{Hasher}.
Implicit Types (req : request) (st : state) (u p salt : string).

End queue.

(** ** A session that names nobody *)

(** X18. A session whose ["user_id"] no row of the store carries does not
    open a guarded view: the request is answered with the redirect to the
    login view, whatever the view is, and the session is not cleaned up, it
    still holds that id afterwards. *)
Theorem stale_session_is_redirected {K} (view : K → M response) (kwargs : K)
    (st : state) (i : Z) :
  session st !! "user_id" = Some i →
  (∀ r, r ∈ user (store st) → row_id r ≠ i) →
  fst (dispatch (login_required view kwargs) st) = Ok (Redirect "/auth/login") ∧
  session (snd (dispatch (login_required view kwargs) st)) = session st ∧
  store (snd (dispatch (login_required view kwargs) st)) = store st ∧
  flashes (snd (dispatch (login_required view kwargs) st)) = flashes st.
Proof.
  intros Hi Hnone.
  assert (hydrate st = Some None) as Hh.
  { rewrite hydrate_eq, Hi. simpl. by apply fetchone_id_None in Hnone as ->. }
  rewrite (dispatch_guard_anonymous view kwargs _ Hh).
  destruct (load_logged_in_user_frame st) as (_ & Hst & Hse & Hfl & _).
  by repeat split.
Qed.

(** ** The further properties on concrete requests *)

(** A connection with an open transaction is handed back as it is. *)
Lemma get_db_reuses_connection_witness :
  g_db (set_g_db (Some (InTransaction (bob_registers (store st_alice)))) st_alice)
    = Some (InTransaction (bob_registers (store st_alice))) ∧
  get_db (set_g_db (Some (InTransaction (bob_registers (store st_alice)))) st_alice)
    = (Ok tt,
       set_g_db (Some (InTransaction (bob_registers (store st_alice)))) st_alice).
Proof.
  split; [reflexivity|].
  destruct (get_db_reuses_connection
    (set_g_db (Some (InTransaction (bob_registers (store st_alice)))) st_alice))
    as (_ & _ & Hsame & _).
  apply (Hsame (InTransaction (bob_registers (store st_alice)))). reflexivity.
Defined.

(** Closing without a connection, and connecting then closing. *)
Lemma close_db_releases_witness :
  g_db st_alice = None ∧
  close_db st_alice = (Ok tt, st_alice) ∧
  snd (close_db (snd (get_db st_alice))) = st_alice.
Proof.
  split; [reflexivity|].
  destruct (close_db_releases st_alice) as (_ & _ & _ & _ & Hnoop & Hback & _).
  split; [apply Hnoop|apply Hback]; reflexivity.
Defined.


(** An empty form, and a form with the username only. *)
Lemma post_missing_field_witness :
  (register (H:=plain_hasher) "s" (Request "POST" ∅) st_alice
     = (Raise (BadRequestKeyError "username"), st_alice) ∧
   login (H:=plain_hasher) (Request "POST" ∅) st_alice
     = (Raise (BadRequestKeyError "username"), st_alice)) ∧
  (register (H:=plain_hasher) "s"
     (Request "POST" (<["username" := "alice"]> ∅)) st_alice
     = (Raise (BadRequestKeyError "password"), st_alice) ∧
   login (H:=plain_hasher) (Request "POST" (<["username" := "alice"]> ∅)) st_alice
     = (Raise (BadRequestKeyError "password"), st_alice)).
Proof.
  split.
  - destruct (post_missing_field (H:=plain_hasher) "s" (Request "POST" ∅)
                st_alice eq_refl) as (Hnone & _).
    apply Hnone. reflexivity.
  - destruct (post_missing_field (H:=plain_hasher) "s"
                (Request "POST" (<["username" := "alice"]> ∅)) st_alice eq_refl)
      as (_ & Hone).
    apply (Hone "alice"); reflexivity.
Defined.

(** Alice logs in and is alice on the next request. *)
Lemma login_then_hydrate_witness :
  fetchone (select_where_username "alice" (store st_alice)) = Some alice ∧
  hydrate (snd (dispatch (login (H:=plain_hasher) (post "alice" "secret1"))
    st_alice)) = Some (Some alice).
Proof.
  split; [reflexivity|].
  apply (login_then_hydrate (H:=plain_hasher) (post "alice" "secret1") st_alice
           "alice" "secret1" alice); try reflexivity.
  apply NoDup_singleton.
Defined.

(** Alice logs in and the guarded view runs. *)
Lemma login_grants_access_witness :
  fst (dispatch (login_required create_view ())
    (snd (dispatch (login (H:=plain_hasher) (post "alice" "secret1")) st_alice)))
    = Ok (Render "blog/create.html") ∧
  flashes (snd (dispatch (login_required create_view ())
    (snd (dispatch (login (H:=plain_hasher) (post "alice" "secret1")) st_alice))))
    = ["create ran"].
Proof.
  rewrite (login_grants_access (H:=plain_hasher) create_view ()
             (post "alice" "secret1") st_alice "alice" "secret1" alice
             eq_refl eq_refl eq_refl eq_refl eq_refl).
  split; reflexivity.
Defined.

(** Two registrations as alice on a fresh database. *)
Lemma register_twice_witness :
  let first :=
    dispatch (register (H:=plain_hasher) "s" (post "alice" "secret1")) st_empty in
  let second :=
    dispatch (register (H:=plain_hasher) "t" (post "alice" "secret2")) (snd first) in
  fst second = Ok (Render "auth/register.html") ∧
  user (store (snd second)) = [alice] ∧
  flashes (snd second) = ["User alice is already registered."].
Proof.
  destruct (register_twice (H:=plain_hasher) "s" "t" (post "alice" "secret1")
              (post "alice" "secret2") st_empty "alice" "secret1" "secret2")
    as (_ & Hr & _ & Hrows & Hfl); first [reflexivity | discriminate | idtac].
  split; [exact Hr|]. split; [exact Hrows|exact Hfl].
Defined.



(** Bob registers after alice. *)
Lemma dispatch_well_formed_witness :
  well_formed (store st_alice) ∧
  well_formed (store (snd (dispatch
    (register (H:=plain_hasher) "t" (post "bob" "hunter2")) st_alice))).
Proof.
  assert (well_formed (store st_alice)) as Hwf
    by (split; apply NoDup_singleton).
  split; [exact Hwf|].
  apply (dispatch_well_formed (H:=plain_hasher) "t" (post "bob" "hunter2")
           st_alice Hwf).
Defined.

(** A cookie for user 5 when only user 1 exists. *)
Lemma stale_session_is_redirected_witness :
  session st_stale !! "user_id" = Some 5%Z ∧
  fst (dispatch (login_required create_view ()) st_stale)
    = Ok (Redirect "/auth/login") ∧
  session (snd (dispatch (login_required create_view ()) st_stale))
    !! "user_id" = Some 5%Z.
Proof.
  split; [reflexivity|].
  destruct (stale_session_is_redirected create_view () st_stale 5%Z)
    as (Hr & Hse & _); [reflexivity| |].
  { intros r [->|[]%elem_of_nil]%elem_of_cons. discriminate. }
  split; [exact Hr|]. rewrite Hse. reflexivity.
Defined.
